(** * gorm-pageable: pagination arithmetic and page navigation

    A shallow embedding of [pagable.go] (package [pageable]) and the
    properties of its pagination metadata.

    Conventions of the embedding:
    - Go's [int] is taken at 64 bits (the width on every 64-bit target);
      a value is a [Z] inside [min_int .. max_int] and every arithmetic
      operator wraps around in two's complement, as the Go specification
      prescribes.  Integer division truncates towards zero ([Z.quot],
      [Z.rem]) and a zero divisor raises a run-time panic.
    - The package-level variables [recovery], [defaultRpp], [use0Page]
      are the fields of a record [Globals] that every function reads.
    - [*gorm.DB] is an opaque handle; what the database answers for a
      handle (the count, the rows read for a limit and an offset, the
      error left on the handle) is a [DataSource], given to every call
      so that it may differ between two calls.
    - [*Response] and the destination slice live in an explicit heap, so
      that sharing between a response and the pages derived from it is
      visible. *)

From Stdlib Require Import ZArith Lia Bool.
From stdpp Require Import base option gmap strings.

Local Open Scope Z_scope.

(** ** Go's [int] *)

Module GoInt.

Definition min_int : Z := - 2 ^ 63.
Definition max_int : Z := 2 ^ 63 - 1.

Definition is_int (z : Z) : Prop := min_int <= z <= max_int.

(** Two's complement wrap-around of a mathematical integer. *)
Definition wrap (z : Z) : Z := (z + 2 ^ 63) mod 2 ^ 64 - 2 ^ 63.

Definition add (a b : Z) : Z := wrap (a + b).
Definition sub (a b : Z) : Z := wrap (a - b).
Definition mul (a b : Z) : Z := wrap (a * b).

(** [a / b] and [a % b]: [None] stands for the panic
    "integer divide by zero". *)
Definition quo (a b : Z) : option Z :=
  if b =? 0 then None else Some (wrap (Z.quot a b)).
Definition rem (a b : Z) : option Z :=
  if b =? 0 then None else Some (Z.rem a b).

End GoInt.

Import GoInt.

(** ** Panics and the deferred recovery handler *)

Definition error := string.

Inductive panic : Type :=
  | DivideByZero
  | NilDereference
  | OtherPanic (msg : string).

(** A call either returns its results or is still panicking when it
    leaves. *)
Inductive outcome (A : Type) : Type :=
  | Return (a : A)
  | Panicking (p : panic).
Arguments Return {A} a.
Arguments Panicking {A} p.

(** [type recoveryHandler func()].  A handler runs deferred: it is given
    the panic in flight, if any, and answers with the panic that is in
    flight when it is done ([None] when it called [recover()] or when
    there was nothing to recover and it did not panic itself). *)
Definition recoveryHandler := option panic -> option panic.

(** [defaultRecovery] calls [recover()] and prints; printing is not
    modelled. *)
Definition defaultRecovery : recoveryHandler := fun _ => None.

(** [defer handler()] around a body whose unnamed results have the zero
    value [zero]: a recovered panic makes the function return [zero]. *)
Definition deferred {A : Type} (handler : recoveryHandler) (zero : A)
    (body : outcome A) : outcome A :=
  match body with
  | Return v =>
      match handler None with
      | None => Return v
      | Some p => Panicking p
      end
  | Panicking p =>
      match handler (Some p) with
      | None => Return zero
      | Some p' => Panicking p'
      end
  end.

(** ** Package-level variables *)

Record Globals : Type := mkGlobals {
  recovery : recoveryHandler;
  defaultRpp : Z;
  use0Page : bool
}.

Definition SetRecovery (g : Globals) (handler : recoveryHandler) : Globals :=
  mkGlobals handler (defaultRpp g) (use0Page g).

Definition SetDefaultRPP (g : Globals) (rpp : Z) : Globals * option error :=
  if rpp <? 1 then (g, Some "invalid input rpp"%string)
  else (mkGlobals (recovery g) rpp (use0Page g), None).

Definition Use0AsFirstPage (g : Globals) : Globals :=
  mkGlobals (recovery g) (defaultRpp g) true.

(** The variables before [init] runs hold zero values; a nil [recovery]
    panics when the deferred call is made. *)
Definition zeroGlobals : Globals :=
  mkGlobals (fun _ => Some NilDereference) 0 false.

Definition init : Globals :=
  let g := SetRecovery zeroGlobals defaultRecovery in
  let g := fst (SetDefaultRPP g 25) in
  mkGlobals (recovery g) (defaultRpp g) false.

(** ** The page window *)

Definition getLimitOffset (g : Globals) (page rpp : Z) : Z * Z :=
  let page := if page <? 0 then 0 else page in
  let rpp := if rpp <? 1 then defaultRpp g else rpp in
  (rpp, mul page rpp).

(** ** Responses, the heap and the data source *)

(** Addresses of heap objects, and [*gorm.DB] handles. *)
Definition loc := positive.
Definition DB := positive.

(** [type Response struct].  [ResultSet] is the pointer handed in as
    [resultPtr]: the address of the caller's destination slice. *)
Record Response : Type := mkResponse {
  PageNow : Z;
  PageCount : Z;
  RawCount : Z;
  RawPerPage : Z;
  ResultSet : loc;
  FirstPage : bool;
  LastPage : bool;
  Empty : bool;
  StartRow : Z;
  EndRow : Z;
  handler : DB
}.

Section Pageable.

(** The row type of the destination slice. *)
Context {row : Type}.

(** The heap: the [Response] structs allocated so far and the slices
    that destination pointers point to. *)
Record Heap : Type := mkHeap {
  responses : gmap loc Response;
  slices : gmap loc (list row)
}.

(** What the database answers for a handle at the time of a call:
    [Count] is the [int64] written by [queryHandler.Count(&count64)],
    [Find] the rows that [Limit(limit).Offset(offset).Find(resultPtr)]
    stores in the destination ([None] when it stores nothing), and
    [Error] the value of [queryHandler.Error] read afterwards. *)
Record DataSource : Type := mkDataSource {
  Count : DB -> Z;
  Find : DB -> Z -> Z -> option (list row);
  Error : DB -> option error
}.

(** [&Response{...}]: a struct at an address that was not in use. *)
Definition alloc (h : Heap) (v : Response) : loc * Heap :=
  let l := fresh (dom (responses h)) in
  (l, mkHeap (<[l := v]> (responses h)) (slices h)).

(** The effect of [Find] on the destination slice. *)
Definition store (h : Heap) (resultPtr : loc) (rows : option (list row))
  : Heap :=
  match rows with
  | Some rs => mkHeap (responses h) (<[resultPtr := rs]> (slices h))
  | None => h
  end.

(** Lines 126-131 of [PageQuery], "get limit and offSet". *)
Definition pageWindow (g : Globals) (page rawPerPage : Z) : Z * Z :=
  if negb (use0Page g) then getLimitOffset g (sub page 1) rawPerPage
  else getLimitOffset g page rawPerPage.

(** Lines 141-168 of [PageQuery], "get page count" and "prepare base
    response": the value of the [Response] literal, or the panic of
    the division. *)
Definition baseResponse (page rawPerPage count : Z) (queryHandler : DB)
    (resultPtr : loc) : outcome Response :=
  match quo count rawPerPage, rem count rawPerPage with
  | Some q, Some m =>
      let PageCount := if negb (m =? 0) then add q 1 else q in
      let empty := (page >? PageCount) || (count =? 0) in
      let lastPage := page =? PageCount in
      let startRow := if negb empty then mul page rawPerPage else 0 in
      let endRow :=
        if negb empty then
          if negb lastPage then sub (mul (add page 1) rawPerPage) 1
          else count
        else 0 in
      Return {| PageNow := page;
                PageCount := PageCount;
                RawPerPage := rawPerPage;
                RawCount := count;
                ResultSet := resultPtr;
                FirstPage := page =? 1;
                LastPage := lastPage;
                Empty := empty;
                StartRow := startRow;
                EndRow := endRow;
                handler := queryHandler |}
  | _, _ => Panicking DivideByZero
  end.

(** [func PageQuery(page, rawPerPage, queryHandler, resultPtr)],
    returning a [*Response] ([None] for nil) and an [error].  The
    count and the rows are read before the error of the handle is
    looked at, and the page count is computed after it. *)
Definition PageQuery (g : Globals) (ds : DataSource) (h : Heap)
    (page rawPerPage : Z) (queryHandler : DB) (resultPtr : loc)
  : Heap * outcome (option loc * option error) :=
  let '(limit, offset) := pageWindow g page rawPerPage in
  let count64 := Count ds queryHandler in
  let count := wrap count64 in
  let h := store h resultPtr (Find ds queryHandler limit offset) in
  let '(h, body) :=
    match Error ds queryHandler with
    | Some err => (h, Return (None, Some err))
    | None =>
        match baseResponse page rawPerPage count queryHandler resultPtr with
        | Return v => let '(l, h) := alloc h v in (h, Return (Some l, None))
        | Panicking p => (h, Panicking p)
        end
    end in
  (h, deferred (recovery g) (None, None) body).

(** Methods have a pointer receiver; an address that holds no
    [Response] stands for nil, and reading a field through it
    panics. *)
Definition SetHandler (h : Heap) (r : loc) (handler' : DB)
  : Heap * outcome unit :=
  match responses h !! r with
  | Some v =>
      (mkHeap (<[r := mkResponse (PageNow v) (PageCount v) (RawCount v)
                       (RawPerPage v) (ResultSet v) (FirstPage v)
                       (LastPage v) (Empty v) (StartRow v) (EndRow v)
                       handler']> (responses h)) (slices h),
       Return tt)
  | None => (h, Panicking NilDereference)
  end.

Definition GetNextPage (g : Globals) (ds : DataSource) (h : Heap) (r : loc)
  : Heap * outcome (option loc * option error) :=
  match responses h !! r with
  | Some v =>
      PageQuery g ds h (add (PageNow v) 1) (RawPerPage v) (handler v)
        (ResultSet v)
  | None => (h, Panicking NilDereference)
  end.

Definition GetLastPage (g : Globals) (ds : DataSource) (h : Heap) (r : loc)
  : Heap * outcome (option loc * option error) :=
  match responses h !! r with
  | Some v =>
      PageQuery g ds h (sub (PageNow v) 1) (RawPerPage v) (handler v)
        (ResultSet v)
  | None => (h, Panicking NilDereference)
  end.

Definition GetEndPage (g : Globals) (ds : DataSource) (h : Heap) (r : loc)
  : Heap * outcome (option loc * option error) :=
  match responses h !! r with
  | Some v =>
      PageQuery g ds h (PageCount v) (RawPerPage v) (handler v)
        (ResultSet v)
  | None => (h, Panicking NilDereference)
  end.

Definition GetFirstPage (g : Globals) (ds : DataSource) (h : Heap) (r : loc)
  : Heap * outcome (option loc * option error) :=
  let p := if use0Page g then 0 else 1 in
  match responses h !! r with
  | Some v => PageQuery g ds h p (RawPerPage v) (handler v) (ResultSet v)
  | None => (h, Panicking NilDereference)
  end.

End Pageable.

Arguments Heap : clear implicits.
Arguments DataSource : clear implicits.

(** A table of rows queried without a filter, as a data source that
    never fails: every handle counts and reads the whole table. *)
Definition tableSource {row : Type} (table : list row) : DataSource row :=
  {| Count := fun _ => Z.of_nat (length table);
     Find := fun _ limit offset =>
       Some (take (Z.to_nat limit) (drop (Z.to_nat offset) table));
     Error := fun _ => None |}.

Definition emptyHeap {row : Type} : Heap row := mkHeap ∅ ∅.

(** The response a call returned, when it returned one and no error. *)
Definition returned {row : Type}
    (x : Heap row * outcome (option loc * option error)) : option Response :=
  match x.2 with
  | Return (Some l, None) => responses x.1 !! l
  | _ => None
  end.

(** The four navigation methods, to state what they have in common. *)
Inductive navigation : Type := NavNext | NavPrevious | NavFirst | NavEnd.

Definition navigate {row : Type} (n : navigation)
  : Globals -> DataSource row -> Heap row -> loc ->
    Heap row * outcome (option loc * option error) :=
  match n with
  | NavNext => GetNextPage
  | NavPrevious => GetLastPage
  | NavFirst => GetFirstPage
  | NavEnd => GetEndPage
  end.

(** The page number a navigation method asks [PageQuery] for. *)
Definition targetPage (g : Globals) (n : navigation) (v : Response) : Z :=
  match n with
  | NavNext => add (PageNow v) 1
  | NavPrevious => sub (PageNow v) 1
  | NavFirst => if use0Page g then 0 else 1
  | NavEnd => PageCount v
  end.

(** Ceiling division on the mathematical integers: [n] is the least
    integer with [a <= n * b]. *)
Definition is_ceil_div (a b n : Z) : Prop :=
  a <= n * b /\ forall k : Z, a <= k * b -> n <= k.

(** A table of [n] rows numbered from 0, for the scenarios. *)
Definition numbered (n : Z) : DataSource Z := tableSource (seqZ 0 n).

(** Page 1 of 100 rows by 25 under the default convention, and the heap
    it leaves, as the receiver of the navigation scenarios. *)
Definition firstFetch : Heap Z * outcome (option loc * option error) :=
  PageQuery init (numbered 100) emptyHeap 1 25 1%positive 2%positive.

Definition firstResponse : Response :=
  {| PageNow := 1; PageCount := 4; RawCount := 100; RawPerPage := 25;
     ResultSet := 2%positive; FirstPage := true; LastPage := false;
     Empty := false; StartRow := 25; EndRow := 49; handler := 1%positive |}.

(** The values the package-level variables can hold in a running
    program: [init] has run, and any of the three setters may have been
    called since, [SetDefaultRPP] with an argument that is an [int]. *)
Inductive configured : Globals -> Prop :=
  | configured_init : configured init
  | configured_SetRecovery g handler :
      configured g -> configured (SetRecovery g handler)
  | configured_SetDefaultRPP g rpp :
      is_int rpp -> configured g -> configured (SetDefaultRPP g rpp).1
  | configured_Use0AsFirstPage g :
      configured g -> configured (Use0AsFirstPage g).

(** The number of the first page under the convention in force, as
    [GetFirstPage] computes it. *)
Definition firstPageNumber (g : Globals) : Z :=
  if use0Page g then 0 else 1.

(** ** Proof steps *)

Ltac closed_bound := vm_compute; split; discriminate.

(** Replaces [H : baseResponse ... = Return v], for a page size known to
    be non-zero, by the [Response] literal itself. *)
Ltac open_baseResponse H :=
  unfold baseResponse, quo, rem in H;
  match type of H with
  | context [?r =? 0] => destruct (r =? 0) eqn:?; [lia|]
  end;
  injection H as <-; simpl.

(** * Properties *)

(** ** Wrap-around arithmetic *)

Lemma wrap_id (z : Z) : is_int z -> wrap z = z.
Proof.
  unfold is_int, min_int, max_int, wrap. intros Hz.
  rewrite Z.mod_small; lia.
Qed.

Lemma wrap_is_int (z : Z) : is_int (wrap z).
Proof.
  unfold is_int, min_int, max_int, wrap.
  pose proof (Z.mod_pos_bound (z + 2 ^ 63) (2 ^ 64)). lia.
Qed.

Lemma wrap_succ_pred (z : Z) : sub (add z 1) 1 = wrap z.
Proof.
  unfold sub, add, wrap. f_equal.
  replace ((z + 1 + 2 ^ 63) `mod` 2 ^ 64 - 2 ^ 63 - 1 + 2 ^ 63)
    with ((z + 1 + 2 ^ 63) `mod` 2 ^ 64 - 1) by lia.
  rewrite Zminus_mod_idemp_l. f_equal. lia.
Qed.

(** ** Allocation *)

Section HeapFacts.

Context {row : Type}.
Implicit Types (h : Heap row) (v w : Response) (l : loc).

Lemma alloc_lookup h v : responses (alloc h v).2 !! (alloc h v).1 = Some v.
Proof. unfold alloc. simpl. apply lookup_insert_eq. Qed.

Lemma alloc_fresh h v : responses h !! (alloc h v).1 = None.
Proof. unfold alloc. simpl. apply not_elem_of_dom, is_fresh. Qed.

Lemma alloc_other h v l w :
  responses h !! l = Some w -> responses (alloc h v).2 !! l = Some w.
Proof.
  intros Hl. unfold alloc. simpl. rewrite lookup_insert_ne; [done|].
  intros <-. pose proof (alloc_fresh h v) as Hf. unfold alloc in Hf.
  simpl in Hf. congruence.
Qed.

Lemma alloc_slices h v : slices (alloc h v).2 = slices h.
Proof. reflexivity. Qed.

Lemma store_responses h l (rows : option (list row)) :
  responses (store h l rows) = responses h.
Proof. by destruct rows. Qed.

Lemma store_slices h l (rows : option (list row)) :
  slices (store h l rows) !! l
  = match rows with Some rs => Some rs | None => slices h !! l end.
Proof. destruct rows; simpl; [apply lookup_insert_eq|done]. Qed.

End HeapFacts.

(** ** How [PageQuery] runs *)

Section Runs.

Context {row : Type}.
Implicit Types (g : Globals) (ds : DataSource row) (h : Heap row).
Implicit Types (v : Response) (l resultPtr : loc) (queryHandler : DB).

(** With a handle free of error and a non-zero page size, the body
    reaches the [Response] literal. *)
Lemma PageQuery_returns g ds h page rawPerPage queryHandler resultPtr v :
  Error ds queryHandler = None ->
  recovery g None = None ->
  baseResponse page rawPerPage (wrap (Count ds queryHandler)) queryHandler
    resultPtr = Return v ->
  let w := pageWindow g page rawPerPage in
  let h1 := store h resultPtr (Find ds queryHandler w.1 w.2) in
  PageQuery g ds h page rawPerPage queryHandler resultPtr
  = ((alloc h1 v).2, Return (Some (alloc h1 v).1, None)).
Proof.
  intros He Hr Hb. unfold PageQuery.
  destruct (pageWindow g page rawPerPage) as [limit offset]. simpl.
  rewrite He, Hb. simpl. by rewrite Hr.
Qed.

(** Conversely, a call that returned a response went that way. *)
Lemma PageQuery_inv g ds h page rawPerPage queryHandler resultPtr h' l :
  PageQuery g ds h page rawPerPage queryHandler resultPtr
  = (h', Return (Some l, None)) ->
  Error ds queryHandler = None /\ recovery g None = None /\
  exists v,
    baseResponse page rawPerPage (wrap (Count ds queryHandler))
      queryHandler resultPtr = Return v /\
    responses h' !! l = Some v.
Proof.
  unfold PageQuery.
  destruct (pageWindow g page rawPerPage) as [limit offset]. simpl.
  destruct (Error ds queryHandler) as [err|] eqn:He.
  - simpl. destruct (recovery g None); intros [= ]; discriminate.
  - destruct (baseResponse _ _ _ _ _) as [v|p] eqn:Hb; simpl.
    + destruct (recovery g None) eqn:Hr; intros [= <- <-].
      split; [done|]. split; [done|]. exists v. split; [done|].
      apply (alloc_lookup (store h resultPtr
                             (Find ds queryHandler limit offset)) v).
    + destruct (recovery g (Some p)); intros [= ]; discriminate.
Qed.

Lemma baseResponse_total page rawPerPage count queryHandler resultPtr :
  rawPerPage <> 0 ->
  exists v,
    baseResponse page rawPerPage count queryHandler resultPtr = Return v.
Proof.
  intros Hn. unfold baseResponse, quo, rem.
  destruct (rawPerPage =? 0) eqn:E; [lia|]. eauto.
Qed.

Lemma returned_PageQuery g ds h page rawPerPage queryHandler resultPtr v :
  Error ds queryHandler = None ->
  recovery g None = None ->
  baseResponse page rawPerPage (wrap (Count ds queryHandler)) queryHandler
    resultPtr = Return v ->
  returned (PageQuery g ds h page rawPerPage queryHandler resultPtr)
  = Some v.
Proof.
  intros He Hr Hb. pose proof (PageQuery_returns g ds h _ _ _ _ _ He Hr Hb)
    as Hq. simpl in Hq. rewrite Hq. unfold returned. simpl.
  apply (alloc_lookup (store h resultPtr _) v).
Qed.

End Runs.

(** ** The page count *)

Lemma baseResponse_pageCount page rawPerPage count queryHandler resultPtr v :
  0 <= count <= max_int ->
  1 <= rawPerPage ->
  baseResponse page rawPerPage count queryHandler resultPtr = Return v ->
  is_ceil_div count rawPerPage (PageCount v) /\
  0 <= PageCount v <= count /\
  (PageCount v = 0 <-> count = 0).
Proof.
  intros Hc Hp. unfold baseResponse, quo, rem.
  destruct (rawPerPage =? 0) eqn:E; [lia|]. clear E.
  rewrite Z.quot_div_nonneg, Z.rem_mod_nonneg by lia.
  pose proof (Z.div_mod count rawPerPage ltac:(lia)) as Hdm.
  pose proof (Z.mod_pos_bound count rawPerPage ltac:(lia)) as Hm.
  assert (0 <= count `div` rawPerPage <= count) as Hq.
  { split; [apply Z.div_pos; lia|]. apply Z.div_le_upper_bound; nia. }
  rewrite (wrap_id (count `div` rawPerPage))
    by (unfold is_int, min_int, max_int in *; lia).
  intros [= <-]. simpl. unfold is_ceil_div.
  destruct (count `mod` rawPerPage =? 0) eqn:Em; simpl.
  - apply Z.eqb_eq in Em. repeat split; nia.
  - apply Z.eqb_neq in Em.
    assert (2 <= rawPerPage) as H2.
    { destruct (Z.eq_dec rawPerPage 1) as [->|]; [|lia].
      rewrite Z.mod_1_r in Em. lia. }
    assert (count `div` rawPerPage + 1 <= count) as Hq1 by nia.
    unfold add. rewrite wrap_id
      by (unfold is_int, min_int, max_int in *; lia).
    repeat split; nia.
Qed.

(** ** Metadata of a fetched page *)

Section Metadata.

Context {row : Type}.
Implicit Types (g : Globals) (ds : DataSource row) (h : Heap row).
Implicit Types (v : Response) (l resultPtr : loc) (queryHandler : DB).

(** C6: for a total row count [>= 0] and a page size [>= 1] the
    returned [PageCount] is the ceiling of count / size, and it is 0
    exactly when the count is 0. *)
Theorem pageCount_is_ceiling g ds h page rawPerPage queryHandler resultPtr :
  Error ds queryHandler = None ->
  recovery g None = None ->
  0 <= Count ds queryHandler <= max_int ->
  1 <= rawPerPage ->
  exists v,
    returned (PageQuery g ds h page rawPerPage queryHandler resultPtr)
    = Some v /\
    RawCount v = Count ds queryHandler /\
    RawPerPage v = rawPerPage /\
    is_ceil_div (RawCount v) (RawPerPage v) (PageCount v) /\
    (PageCount v = 0 <-> RawCount v = 0).
Proof.
  intros He Hr Hc Hp.
  assert (wrap (Count ds queryHandler) = Count ds queryHandler) as Hw.
  { apply wrap_id. unfold is_int, min_int, max_int in *. lia. }
  destruct (baseResponse_total page rawPerPage (wrap (Count ds queryHandler))
              queryHandler resultPtr ltac:(lia)) as [v Hv].
  exists v. split; [by apply returned_PageQuery|].
  rewrite Hw in Hv.
  destruct (baseResponse_pageCount _ _ _ _ _ _ Hc Hp Hv) as (Hceil & _ & H0).
  assert (RawCount v = Count ds queryHandler /\ RawPerPage v = rawPerPage)
    as [Hrc Hrp].
  { by open_baseResponse Hv. }
  rewrite Hrc, Hrp. done.
Qed.

(** C7: with a page size [>= 1], [Empty] is
    [(page > PageCount) || (count == 0)], so a page beyond the page
    count is empty, and an empty result has [StartRow = EndRow = 0]. *)
Theorem empty_flag_and_rows g ds h page rawPerPage queryHandler resultPtr :
  Error ds queryHandler = None ->
  recovery g None = None ->
  1 <= rawPerPage ->
  exists v,
    returned (PageQuery g ds h page rawPerPage queryHandler resultPtr)
    = Some v /\
    PageNow v = page /\
    RawCount v = wrap (Count ds queryHandler) /\
    Empty v = (page >? PageCount v) || (RawCount v =? 0) /\
    (PageCount v < page -> Empty v = true) /\
    (Empty v = true -> StartRow v = 0 /\ EndRow v = 0).
Proof.
  intros He Hr Hp.
  destruct (baseResponse_total page rawPerPage (wrap (Count ds queryHandler))
              queryHandler resultPtr ltac:(lia)) as [v Hv].
  exists v. split; [by apply returned_PageQuery|].
  open_baseResponse Hv.
  split; [done|]. split; [done|]. split; [done|]. split.
  - intros Hlt. apply orb_true_iff. left. lia.
  - by intros ->.
Qed.

(** C10: with no rows at all, a request for page 0 is at once [Empty]
    and [LastPage]: the two flags do not exclude each other. *)
Theorem empty_and_last_together g ds h rawPerPage queryHandler resultPtr :
  Error ds queryHandler = None ->
  recovery g None = None ->
  Count ds queryHandler = 0 ->
  1 <= rawPerPage ->
  exists v,
    returned (PageQuery g ds h 0 rawPerPage queryHandler resultPtr)
    = Some v /\
    RawCount v = 0 /\ PageCount v = 0 /\
    Empty v = true /\ LastPage v = true /\
    StartRow v = 0 /\ EndRow v = 0.
Proof.
  intros He Hr Hc Hp.
  destruct (baseResponse_total 0 rawPerPage (wrap (Count ds queryHandler))
              queryHandler resultPtr ltac:(lia)) as [v Hv].
  exists v. split; [by apply returned_PageQuery|].
  revert Hv. rewrite Hc. unfold baseResponse, quo, rem.
  destruct (rawPerPage =? 0) eqn:E; [lia|].
  change (wrap 0) with 0. rewrite Z.quot_0_l, Z.rem_0_l by lia.
  intros [= <-]. done.
Qed.

End Metadata.

Lemma pageCount_is_ceiling_witness :
  Error (numbered 101) 1%positive = None /\
  recovery init None = None /\
  0 <= Count (numbered 101) 1%positive <= max_int /\
  1 <= 25 /\
  exists v,
    returned (PageQuery init (numbered 101) emptyHeap 1 25 1%positive
                2%positive) = Some v /\
    RawCount v = Count (numbered 101) 1%positive /\
    RawPerPage v = 25 /\
    is_ceil_div (RawCount v) (RawPerPage v) (PageCount v) /\
    (PageCount v = 0 <-> RawCount v = 0).
Proof.
  split; [reflexivity|]. split; [reflexivity|].
  split; [closed_bound|]. split; [lia|].
  apply (pageCount_is_ceiling init (numbered 101) emptyHeap 1 25 1%positive
           2%positive); [reflexivity|reflexivity|closed_bound|lia].
Defined.

Lemma empty_flag_and_rows_witness :
  exists v,
    returned (PageQuery init (numbered 100) emptyHeap 10 25 1%positive
                2%positive) = Some v /\
    PageNow v = 10 /\
    RawCount v = wrap (Count (numbered 100) 1%positive) /\
    Empty v = (10 >? PageCount v) || (RawCount v =? 0) /\
    (PageCount v < 10 -> Empty v = true) /\
    (Empty v = true -> StartRow v = 0 /\ EndRow v = 0).
Proof.
  apply (empty_flag_and_rows init (numbered 100) emptyHeap 10 25 1%positive
           2%positive); [reflexivity|reflexivity|lia].
Defined.

Lemma empty_and_last_together_witness :
  exists v,
    returned (PageQuery init (numbered 0) emptyHeap 0 25 1%positive
                2%positive) = Some v /\
    RawCount v = 0 /\ PageCount v = 0 /\
    Empty v = true /\ LastPage v = true /\
    StartRow v = 0 /\ EndRow v = 0.
Proof.
  apply (empty_and_last_together init (numbered 0) emptyHeap 25 1%positive
           2%positive); [reflexivity|reflexivity|reflexivity|lia].
Defined.

(** ** The first-page convention and the metadata *)

(** Whatever the convention, [FirstPage] compares the requested page
    with 1, [LastPage] compares it with the page count and [StartRow]
    multiplies it, unshifted, by the page size. *)
Lemma metadata_ignores_convention {row : Type} g (ds : DataSource row) h
    page rawPerPage queryHandler resultPtr v :
  rawPerPage <> 0 ->
  returned (PageQuery g ds h page rawPerPage queryHandler resultPtr) = Some v ->
  FirstPage v = (page =? 1) /\
  LastPage v = (page =? PageCount v) /\
  (Empty v = false -> StartRow v = mul page rawPerPage).
Proof.
  intros Hn Hv. unfold returned in Hv.
  destruct (PageQuery g ds h page rawPerPage queryHandler resultPtr)
    as [h' [[[l|] [e|]]|p]] eqn:Hq; simpl in Hv; try discriminate.
  apply PageQuery_inv in Hq as (_ & _ & v' & Hb & Hl).
  assert (v' = v) as -> by congruence.
  open_baseResponse Hb. split; [done|]. split; [done|]. by intros ->.
Qed.

(** C1: under the default convention (pages numbered from 1), page 1 of
    100 rows by 25 is fetched at offset 0 and the destination receives
    rows 0 to 24, yet the response reports [StartRow = 25] and
    [EndRow = 49], the rows of the page after it; the claim asks for
    [StartRow = 0] and [EndRow = 24]. *)
Theorem startRow_uses_raw_page :
  let res :=
    PageQuery init (numbered 100) emptyHeap 1 25 1%positive 2%positive in
  pageWindow init 1 25 = (25, 0) /\
  slices res.1 !! 2%positive = Some (seqZ 0 25) /\
  exists v,
    returned res = Some v /\
    PageCount v = 4 /\ FirstPage v = true /\ LastPage v = false /\
    Empty v = false /\ StartRow v = 25 /\ EndRow v = 49.
Proof.
  simpl. split; [reflexivity|]. split; [reflexivity|].
  eexists. split; [vm_compute; reflexivity|]. repeat split.
Qed.

(** C2: a page size of 0 is replaced by the default only for the page
    window; the page count divides by the page size as given, so the
    call panics.  The default handler recovers and the call returns a
    nil response with a nil error; a handler that does not recover lets
    the panic through.  A negative page size is used as given too. *)
Theorem zero_page_size_divides_by_zero :
  pageWindow init 1 0 = (25, 0) /\
  (PageQuery init (numbered 100) emptyHeap 1 0 1%positive 2%positive).2
  = Return (None, None) /\
  (PageQuery (SetRecovery init (fun p => p)) (numbered 100) emptyHeap 1 0
     1%positive 2%positive).2
  = Panicking DivideByZero /\
  exists v,
    returned (PageQuery init (numbered 100) emptyHeap 1 (-5) 1%positive
                2%positive) = Some v /\
    RawPerPage v = -5 /\ PageCount v = -20.
Proof.
  split; [reflexivity|]. split; [reflexivity|]. split; [reflexivity|].
  eexists. split; [vm_compute; reflexivity|]. split; reflexivity.
Qed.

(** C3: with pages numbered from 0, page 0 of 30 rows by 10 is fetched
    at offset 0 and is not empty, but [FirstPage] is false: the flag is
    [page == 1] under either convention. *)
Theorem firstPage_flag_ignores_convention :
  let g := Use0AsFirstPage init in
  pageWindow g 0 10 = (10, 0) /\
  (exists v,
     returned (PageQuery g (numbered 30) emptyHeap 0 10 1%positive
                 2%positive) = Some v /\
     FirstPage v = false /\ Empty v = false) /\
  (exists v,
     returned (PageQuery g (numbered 30) emptyHeap 1 10 1%positive
                 2%positive) = Some v /\
     FirstPage v = true).
Proof.
  simpl. split; [reflexivity|].
  split; eexists; (split; [vm_compute; reflexivity|]); repeat split.
Qed.

(** C4: with pages numbered from 0, page 2 of 30 rows by 10 is fetched
    at offset 20 and is the last of three pages, but the response has
    [LastPage = false] and [EndRow = 29]; it is page 3, fetched at
    offset 30 past the last row, that is flagged as the last page. *)
Theorem lastPage_flag_ignores_convention :
  let g := Use0AsFirstPage init in
  pageWindow g 2 10 = (10, 20) /\
  (exists v,
     returned (PageQuery g (numbered 30) emptyHeap 2 10 1%positive
                 2%positive) = Some v /\
     PageCount v = 3 /\ LastPage v = false /\ EndRow v = 29) /\
  pageWindow g 3 10 = (10, 30) /\
  (let res :=
     PageQuery g (numbered 30) emptyHeap 3 10 1%positive 2%positive in
   slices res.1 !! 2%positive = Some [] /\
   exists v,
     returned res = Some v /\
     LastPage v = true /\ Empty v = false /\
     StartRow v = 30 /\ EndRow v = 30).
Proof.
  simpl. split; [reflexivity|]. split.
  { eexists. split; [vm_compute; reflexivity|]. repeat split. }
  split; [reflexivity|]. split; [reflexivity|].
  eexists. split; [vm_compute; reflexivity|]. repeat split.
Qed.

(** ** Navigation *)

Lemma baseResponse_fields page rawPerPage count queryHandler resultPtr v :
  baseResponse page rawPerPage count queryHandler resultPtr = Return v ->
  rawPerPage <> 0 /\
  PageNow v = page /\ RawPerPage v = rawPerPage /\ RawCount v = count /\
  ResultSet v = resultPtr /\ handler v = queryHandler.
Proof.
  intros Hv. assert (rawPerPage <> 0) as Hn.
  { intros ->. discriminate Hv. }
  split; [done|]. by open_baseResponse Hv.
Qed.

Section Navigation.

Context {row : Type}.
Implicit Types (g : Globals) (ds : DataSource row) (h : Heap row).
Implicit Types (v : Response) (l r resultPtr : loc) (queryHandler : DB).

(** Every navigation method is [PageQuery] at its target page, with
    the page size, the handle and the destination of the receiver. *)
Lemma navigate_PageQuery n g ds h r v :
  responses h !! r = Some v ->
  navigate n g ds h r
  = PageQuery g ds h (targetPage g n v) (RawPerPage v) (handler v)
      (ResultSet v).
Proof.
  intros Hr. destruct n; simpl;
    unfold GetNextPage, GetLastPage, GetFirstPage, GetEndPage;
    by rewrite Hr.
Qed.

(** What a call does to the heap, however it ends: the destination
    receives the rows read, the responses present stay as they are,
    and a response returned is at an address not used before. *)
Lemma PageQuery_heap g ds h page rawPerPage queryHandler resultPtr :
  let w := pageWindow g page rawPerPage in
  let res := PageQuery g ds h page rawPerPage queryHandler resultPtr in
  slices res.1
  = slices (store h resultPtr (Find ds queryHandler w.1 w.2)) /\
  (forall l v, responses h !! l = Some v -> responses res.1 !! l = Some v) /\
  (forall l, res.2 = Return (Some l, None) -> responses h !! l = None).
Proof.
  unfold PageQuery.
  destruct (pageWindow g page rawPerPage) as [limit offset]. simpl.
  set (h1 := store h resultPtr (Find ds queryHandler limit offset)).
  assert (responses h1 = responses h) as Hresp by apply store_responses.
  destruct (Error ds queryHandler) as [err|]; simpl.
  { split; [done|]. split; [by intros l v; rewrite Hresp|].
    intros l. destruct (recovery g None); discriminate. }
  destruct (baseResponse _ _ _ _ _) as [v|p]; simpl.
  - split; [done|]. split.
    + intros l w Hl. apply alloc_other. by rewrite Hresp.
    + intros l. destruct (recovery g None); intros [= <-].
      rewrite <- Hresp. apply (alloc_fresh h1 v).
  - split; [done|]. split; [by intros l v; rewrite Hresp|].
    intros l. destruct (recovery g (Some p)); discriminate.
Qed.

(** C8, amended: a navigation method leaves the receiver's struct as
    it was and returns a response at a new address, but that response
    points to the receiver's destination slice, and the slice then
    holds the rows read for the target page. *)
Theorem navigation_shares_destination n g ds h r v :
  responses h !! r = Some v ->
  let page := targetPage g n v in
  let w := pageWindow g page (RawPerPage v) in
  let res := navigate n g ds h r in
  responses res.1 !! r = Some v /\
  slices res.1 !! ResultSet v
  = match Find ds (handler v) w.1 w.2 with
    | Some rows => Some rows
    | None => slices h !! ResultSet v
    end /\
  (forall l, res.2 = Return (Some l, None) ->
     l <> r /\ responses h !! l = None /\
     exists v', responses res.1 !! l = Some v' /\
                PageNow v' = page /\
                ResultSet v' = ResultSet v /\
                handler v' = handler v) /\
  (Error ds (handler v) = None -> recovery g None = None ->
   RawPerPage v <> 0 ->
   exists l, res.2 = Return (Some l, None)).
Proof.
  intros Hr page w res. subst res. rewrite (navigate_PageQuery n g ds h r v Hr).
  fold page.
  destruct (PageQuery_heap g ds h page (RawPerPage v) (handler v)
              (ResultSet v)) as (Hs & Hkeep & Hnew).
  fold w in Hs. split; [by apply Hkeep|]. split.
  { rewrite Hs. apply store_slices. }
  split.
  - intros l Hl. pose proof (Hnew l Hl) as Hfresh.
    split; [intros ->; congruence|]. split; [done|].
    destruct (PageQuery g ds h page (RawPerPage v) (handler v)
                (ResultSet v)) as [h' o] eqn:Hq. simpl in Hl. subst o.
    apply PageQuery_inv in Hq as (_ & _ & v' & Hb & Hl').
    exists v'. split; [done|].
    apply baseResponse_fields in Hb as (_ & Hp & _ & _ & Hrs & Hh). done.
  - intros He Hrec Hn.
    destruct (baseResponse_total page (RawPerPage v)
                (wrap (Count ds (handler v))) (handler v) (ResultSet v) Hn)
      as [v' Hv'].
    rewrite (PageQuery_returns g ds h _ _ _ _ _ He Hrec Hv'). simpl. eauto.
Qed.

End Navigation.

Lemma firstFetch_returns :
  firstFetch.2 = Return (Some 1%positive, None) /\
  responses firstFetch.1 !! 1%positive = Some firstResponse.
Proof. split; reflexivity. Qed.

Lemma navigation_shares_destination_witness :
  responses firstFetch.1 !! 1%positive = Some firstResponse /\
  let page := targetPage init NavNext firstResponse in
  let w := pageWindow init page (RawPerPage firstResponse) in
  let res := navigate NavNext init (numbered 100) firstFetch.1 1%positive in
  responses res.1 !! 1%positive = Some firstResponse /\
  slices res.1 !! ResultSet firstResponse
  = match Find (numbered 100) (handler firstResponse) w.1 w.2 with
    | Some rows => Some rows
    | None => slices firstFetch.1 !! ResultSet firstResponse
    end /\
  (forall l, res.2 = Return (Some l, None) ->
     l <> 1%positive /\ responses firstFetch.1 !! l = None /\
     exists v', responses res.1 !! l = Some v' /\
                PageNow v' = page /\
                ResultSet v' = ResultSet firstResponse /\
                handler v' = handler firstResponse) /\
  (Error (numbered 100) (handler firstResponse) = None ->
   recovery init None = None ->
   RawPerPage firstResponse <> 0 ->
   exists l, res.2 = Return (Some l, None)).
Proof.
  split; [reflexivity|].
  apply (navigation_shares_destination NavNext init (numbered 100)
           firstFetch.1 1%positive firstResponse).
  reflexivity.
Defined.

(** C8 as stated fails: after page 1 was fetched into the destination
    (rows 0 to 24), [GetNextPage] on that response replaces the rows its
    [ResultSet] points to by those of page 2 (rows 25 to 49). *)
Lemma navigation_overwrites_items :
  let res := GetNextPage init (numbered 100) firstFetch.1 1%positive in
  responses firstFetch.1 !! 1%positive = Some firstResponse /\
  slices firstFetch.1 !! ResultSet firstResponse = Some (seqZ 0 25) /\
  responses res.1 !! 1%positive = Some firstResponse /\
  slices res.1 !! ResultSet firstResponse = Some (seqZ 25 25) /\
  slices res.1 !! ResultSet firstResponse
  <> slices firstFetch.1 !! ResultSet firstResponse.
Proof.
  simpl. split; [reflexivity|]. split; [reflexivity|].
  split; [reflexivity|]. split; [reflexivity|].
  vm_compute. discriminate.
Qed.

Section PreviousPage.

Context {row : Type}.
Implicit Types (g : Globals) (ds : DataSource row) (h : Heap row).
Implicit Types (v : Response) (r : loc).

(** C5, amended: [GetLastPage] on a first page (page size [>= 1], a
    count [>= 0], no error on the handle) returns a response for the
    page before the first one, read at offset 0 like the first page,
    and that response is [Empty] exactly when there are no rows. *)
Theorem previous_of_first_page g ds h r v :
  responses h !! r = Some v ->
  PageNow v = (if use0Page g then 0 else 1) ->
  1 <= RawPerPage v ->
  Error ds (handler v) = None ->
  recovery g None = None ->
  0 <= Count ds (handler v) <= max_int ->
  exists v',
    returned (GetLastPage g ds h r) = Some v' /\
    PageNow v' = PageNow v - 1 /\
    (pageWindow g (PageNow v') (RawPerPage v)).2 = 0 /\
    RawCount v' = Count ds (handler v) /\
    Empty v' = (RawCount v' =? 0).
Proof.
  intros Hr Hfirst Hp He Hrec Hc.
  unfold GetLastPage. rewrite Hr.
  assert (wrap (Count ds (handler v)) = Count ds (handler v)) as Hw.
  { apply wrap_id. unfold is_int, min_int, max_int in *. lia. }
  assert (sub (PageNow v) 1 = PageNow v - 1) as Hsub.
  { rewrite Hfirst. by destruct (use0Page g). }
  rewrite Hsub.
  destruct (baseResponse_total (PageNow v - 1) (RawPerPage v)
              (wrap (Count ds (handler v))) (handler v) (ResultSet v)
              ltac:(lia)) as [v' Hv'].
  exists v'. split; [by apply returned_PageQuery|].
  rewrite Hw in Hv'.
  pose proof (baseResponse_pageCount _ _ _ _ _ _ Hc Hp Hv')
    as (_ & Hpc & _).
  pose proof (baseResponse_fields _ _ _ _ _ _ Hv')
    as (_ & Hpn & _ & Hrc & _).
  split; [done|]. split.
  { rewrite Hpn, Hfirst. unfold pageWindow, getLimitOffset.
    destruct (use0Page g); simpl.
    - change (-1 <? 0) with true. simpl. reflexivity.
    - change (sub 0 1 <? 0) with true. simpl. reflexivity. }
  split; [done|]. rewrite Hrc.
  assert (PageNow v - 1 <= 0) as Hle.
  { rewrite Hfirst. destruct (use0Page g); lia. }
  open_baseResponse Hv'. simpl in Hpc.
  replace (_ >? _) with false; [done|]. symmetry. lia.
Qed.

End PreviousPage.

Lemma previous_of_first_page_witness :
  exists v',
    returned (GetLastPage init (numbered 100) firstFetch.1 1%positive)
    = Some v' /\
    PageNow v' = PageNow firstResponse - 1 /\
    (pageWindow init (PageNow v') (RawPerPage firstResponse)).2 = 0 /\
    RawCount v' = Count (numbered 100) (handler firstResponse) /\
    Empty v' = (RawCount v' =? 0).
Proof.
  apply (previous_of_first_page init (numbered 100) firstFetch.1 1%positive
           firstResponse);
    [reflexivity|reflexivity|simpl; lia|reflexivity|reflexivity|closed_bound].
Defined.

(** C5 as stated fails: [GetLastPage] on page 1 of 100 rows by 25 asks
    for page 0, which is read at offset 0 and is not [Empty]. *)
Lemma previous_of_first_page_not_empty :
  responses firstFetch.1 !! 1%positive = Some firstResponse /\
  FirstPage firstResponse = true /\
  let res := GetLastPage init (numbered 100) firstFetch.1 1%positive in
  slices res.1 !! 2%positive = Some (seqZ 0 25) /\
  exists v',
    returned res = Some v' /\ PageNow v' = 0 /\ Empty v' = false.
Proof.
  split; [reflexivity|]. split; [reflexivity|]. simpl.
  split; [reflexivity|].
  eexists. split; [vm_compute; reflexivity|]. split; reflexivity.
Qed.

Section RoundTrip.

Context {row : Type}.
Implicit Types (g : Globals) (ds : DataSource row) (h : Heap row).
Implicit Types (v : Response) (r resultPtr : loc) (queryHandler : DB).

(** C9: when the handle keeps reporting the same count and no error,
    [GetNextPage] followed by [GetLastPage] on a fetched page returns
    a response with the [PageNow], [PageCount] and [RawCount] of the
    original one. *)
Theorem next_then_previous g ds1 ds2 ds3 h page rawPerPage queryHandler
    resultPtr h1 r1 v1 :
  is_int page ->
  PageQuery g ds1 h page rawPerPage queryHandler resultPtr
  = (h1, Return (Some r1, None)) ->
  responses h1 !! r1 = Some v1 ->
  Count ds2 queryHandler = Count ds1 queryHandler ->
  Count ds3 queryHandler = Count ds1 queryHandler ->
  Error ds2 queryHandler = None ->
  Error ds3 queryHandler = None ->
  exists h2 r2 h3 r3 v3,
    GetNextPage g ds2 h1 r1 = (h2, Return (Some r2, None)) /\
    GetLastPage g ds3 h2 r2 = (h3, Return (Some r3, None)) /\
    responses h3 !! r3 = Some v3 /\
    PageNow v3 = PageNow v1 /\
    PageCount v3 = PageCount v1 /\
    RawCount v3 = RawCount v1.
Proof.
  intros Hpage Hq Hl1 Hc2 Hc3 He2 He3.
  apply PageQuery_inv in Hq as (_ & Hrec & v & Hb1 & Hl).
  assert (v = v1) as -> by congruence.
  pose proof (baseResponse_fields _ _ _ _ _ _ Hb1)
    as (Hn & Hpn & Hrp & _ & Hrs & Hh).
  (* the next page *)
  destruct (baseResponse_total (add page 1) rawPerPage
              (wrap (Count ds2 queryHandler)) queryHandler resultPtr Hn)
    as [v2 Hb2].
  pose proof (PageQuery_returns g ds2 h1 _ _ _ _ _ He2 Hrec Hb2) as Hq2.
  simpl in Hq2.
  set (w2 := pageWindow g (add page 1) rawPerPage) in Hq2.
  set (h1' := store h1 resultPtr (Find ds2 queryHandler w2.1 w2.2)) in Hq2.
  exists (alloc h1' v2).2, (alloc h1' v2).1.
  pose proof (baseResponse_fields _ _ _ _ _ _ Hb2)
    as (_ & Hpn2 & Hrp2 & _ & Hrs2 & Hh2).
  (* and back *)
  assert (sub (add page 1) 1 = page) as Hback.
  { rewrite wrap_succ_pred. by apply wrap_id. }
  assert (baseResponse (sub (add page 1) 1) rawPerPage
            (wrap (Count ds3 queryHandler)) queryHandler resultPtr
          = Return v1) as Hb3.
  { by rewrite Hback, Hc3. }
  pose proof (PageQuery_returns g ds3 (alloc h1' v2).2 _ _ _ _ _
                He3 Hrec Hb3) as Hq3.
  simpl in Hq3.
  set (w3 := pageWindow g (sub (add page 1) 1) rawPerPage) in Hq3.
  set (h2' := store (alloc h1' v2).2 resultPtr
                (Find ds3 queryHandler w3.1 w3.2)) in Hq3.
  exists (alloc h2' v1).2, (alloc h2' v1).1, v1.
  split.
  { unfold GetNextPage. rewrite Hl1, Hpn, Hrp, Hrs, Hh. exact Hq2. }
  split.
  { unfold GetLastPage. rewrite (alloc_lookup h1' v2).
    rewrite Hpn2, Hrp2, Hrs2, Hh2. exact Hq3. }
  split; [apply (alloc_lookup h2' v1)|done].
Qed.

End RoundTrip.

Lemma next_then_previous_witness :
  exists h2 r2 h3 r3 v3,
    GetNextPage init (numbered 100) firstFetch.1 1%positive
    = (h2, Return (Some r2, None)) /\
    GetLastPage init (numbered 100) h2 r2 = (h3, Return (Some r3, None)) /\
    responses h3 !! r3 = Some v3 /\
    PageNow v3 = PageNow firstResponse /\
    PageCount v3 = PageCount firstResponse /\
    RawCount v3 = RawCount firstResponse.
Proof.
  apply (next_then_previous init (numbered 100) (numbered 100) (numbered 100)
           emptyHeap 1 25 1%positive 2%positive firstFetch.1 1%positive
           firstResponse);
    [closed_bound|reflexivity|reflexivity|reflexivity|reflexivity
    |reflexivity|reflexivity].
Defined.

(** * Further properties of the package *)

(** ** Configuration *)

Lemma configured_defaultRpp g :
  configured g -> 1 <= defaultRpp g <= max_int.
Proof.
  induction 1 as [|g handler _ IH|g rpp Hint _ IH|g _ IH].
  - closed_bound.
  - exact IH.
  - unfold SetDefaultRPP. destruct (rpp <? 1) eqn:E; [exact IH|].
    cbn [fst defaultRpp]. unfold is_int in Hint. lia.
  - exact IH.
Qed.

(** X1: the default page size is at least 1 in every configuration a
    program can reach: [init] sets 25 and [SetDefaultRPP] refuses
    anything below 1, while the other setters leave it alone. *)
Theorem defaultRpp_stays_positive g :
  configured g -> 1 <= defaultRpp g <= max_int.
Proof. apply configured_defaultRpp. Qed.

Lemma defaultRpp_stays_positive_witness :
  configured (SetDefaultRPP (Use0AsFirstPage init) 0).1 /\
  1 <= defaultRpp (SetDefaultRPP (Use0AsFirstPage init) 0).1 <= max_int.
Proof.
  assert (configured (SetDefaultRPP (Use0AsFirstPage init) 0).1) as Hc.
  { apply configured_SetDefaultRPP; [closed_bound|].
    apply configured_Use0AsFirstPage, configured_init. }
  split; [exact Hc|].
  apply (defaultRpp_stays_positive (SetDefaultRPP (Use0AsFirstPage init) 0).1).
  exact Hc.
Defined.

(** X2: [SetDefaultRPP] returns an error exactly for a size below 1 and
    then changes nothing; a size it accepts becomes the limit of every
    later fetch asked with a size below 1, and the recovery handler and
    the first-page convention are kept. *)
Theorem SetDefaultRPP_effect g rpp :
  let res := SetDefaultRPP g rpp in
  (res.2 <> None <-> rpp < 1) /\
  (res.2 <> None -> res.1 = g) /\
  (res.2 = None ->
   recovery res.1 = recovery g /\ use0Page res.1 = use0Page g /\
   forall page rawPerPage,
     rawPerPage < 1 -> (pageWindow res.1 page rawPerPage).1 = rpp).
Proof.
  unfold SetDefaultRPP. destruct (rpp <? 1) eqn:E; cbn [fst snd].
  - split; [split; [lia|done]|]. split; [done|]. intros [=].
  - split; [split; [done|lia]|]. split; [done|]. intros _.
    split; [done|]. split; [done|]. intros page rawPerPage Hlt.
    unfold pageWindow, getLimitOffset. cbn [use0Page defaultRpp].
    destruct (rawPerPage <? 1) eqn:E'; [|lia].
    by destruct (negb (use0Page g)).
Qed.

(** ** The page window *)

(** X3: in a reachable configuration the limit handed to the database
    is at least 1 (the size asked, or the default when that is below
    1), and as long as the product fits an [int] the offset is the page
    index, a negative one counted as 0, times the limit. *)
Theorem getLimitOffset_bounds g page rpp :
  configured g ->
  is_int rpp ->
  Z.max 0 page * (getLimitOffset g page rpp).1 <= max_int ->
  let w := getLimitOffset g page rpp in
  1 <= w.1 <= max_int /\
  w.1 = (if rpp <? 1 then defaultRpp g else rpp) /\
  w.2 = Z.max 0 page * w.1 /\
  0 <= w.2.
Proof.
  intros Hg Hrpp. pose proof (configured_defaultRpp g Hg) as Hd.
  unfold getLimitOffset. cbn [fst snd].
  set (limit := if rpp <? 1 then defaultRpp g else rpp).
  assert (1 <= limit <= max_int) as Hl.
  { subst limit. unfold is_int in Hrpp.
    destruct (rpp <? 1) eqn:E; lia. }
  intros Hfit. split; [exact Hl|]. split; [reflexivity|].
  assert (mul (if page <? 0 then 0 else page) limit = Z.max 0 page * limit)
    as ->.
  { unfold mul. destruct (page <? 0) eqn:E.
    - rewrite Z.max_l by lia. reflexivity.
    - rewrite Z.max_r in Hfit |- * by lia. apply wrap_id.
      unfold is_int, min_int, max_int in *. nia. }
  split; [reflexivity|]. nia.
Qed.

Lemma getLimitOffset_bounds_witness :
  let w := getLimitOffset init (-3) 0 in
  1 <= w.1 <= max_int /\
  w.1 = (if 0 <? 1 then defaultRpp init else 0) /\
  w.2 = Z.max 0 (-3) * w.1 /\
  0 <= w.2.
Proof.
  apply (getLimitOffset_bounds init (-3) 0);
    [apply configured_init|closed_bound|vm_compute; discriminate].
Defined.

(** X4: from the first page on, and as long as the offsets fit an
    [int], the window of the next page starts where the window of this
    page ends, with the same limit: consecutive pages neither overlap
    nor leave a gap. *)
Theorem consecutive_windows_adjacent g page rawPerPage :
  configured g ->
  is_int rawPerPage ->
  firstPageNumber g <= page ->
  (page - firstPageNumber g + 1) * (pageWindow g page rawPerPage).1
  <= max_int ->
  let w := pageWindow g page rawPerPage in
  let w' := pageWindow g (add page 1) rawPerPage in
  w'.1 = w.1 /\ w'.2 = w.2 + w.1.
Proof.
  intros Hg Hrpp Hfirst. pose proof (configured_defaultRpp g Hg) as Hd.
  unfold pageWindow, firstPageNumber in *. unfold getLimitOffset.
  set (limit := if rawPerPage <? 1 then defaultRpp g else rawPerPage).
  assert (1 <= limit <= max_int) as Hl.
  { subst limit. unfold is_int in Hrpp.
    destruct (rawPerPage <? 1) eqn:E; lia. }
  destruct (use0Page g); cbn [negb fst snd]; intros Hfit.
  - split; [reflexivity|].
    assert (is_int (page + 1)) as Hp1.
    { unfold is_int, min_int, max_int in *. nia. }
    unfold add. rewrite (wrap_id _ Hp1).
    destruct (page + 1 <? 0) eqn:E1; [lia|].
    destruct (page <? 0) eqn:E2; [lia|].
    unfold mul. rewrite !wrap_id;
      unfold is_int, min_int, max_int in *; nia.
  - split; [reflexivity|].
    assert (is_int page) as Hp.
    { unfold is_int, min_int, max_int in *. nia. }
    rewrite wrap_succ_pred, (wrap_id _ Hp).
    assert (sub page 1 = page - 1) as ->.
    { apply wrap_id. unfold is_int, min_int, max_int in *. lia. }
    destruct (page - 1 <? 0) eqn:E1; [lia|].
    destruct (page <? 0) eqn:E2; [lia|].
    unfold mul. rewrite !wrap_id;
      unfold is_int, min_int, max_int in *; nia.
Qed.

Lemma consecutive_windows_adjacent_witness :
  let w := pageWindow init 3 25 in
  let w' := pageWindow init (add 3 1) 25 in
  w'.1 = w.1 /\ w'.2 = w.2 + w.1.
Proof.
  apply (consecutive_windows_adjacent init 3 25);
    [apply configured_init|closed_bound|vm_compute; discriminate
    |vm_compute; discriminate].
Defined.

(** X5: a page number at or below the first one (the least [int]
    apart, whose predecessor wraps around) is fetched with the window
    of the first page, at offset 0. *)
Theorem pages_before_first_share_window g page rawPerPage :
  min_int < page ->
  page <= firstPageNumber g ->
  pageWindow g page rawPerPage = pageWindow g (firstPageNumber g) rawPerPage /\
  (pageWindow g page rawPerPage).2 = 0.
Proof.
  intros Hmin Hle. unfold pageWindow, firstPageNumber in *.
  unfold getLimitOffset.
  set (limit := if rawPerPage <? 1 then defaultRpp g else rawPerPage).
  assert (mul 0 limit = 0) as H0 by reflexivity.
  destruct (use0Page g); cbn [negb fst snd].
  - change (0 <? 0) with false.
    destruct (page <? 0) eqn:E; [by rewrite H0|].
    assert (page = 0) as -> by lia. by rewrite H0.
  - assert (sub page 1 = page - 1) as ->.
    { apply wrap_id. unfold is_int, min_int, max_int in *. lia. }
    change (sub 1 1) with 0. change (0 <? 0) with false.
    destruct (page - 1 <? 0) eqn:E; [by rewrite H0|].
    assert (page - 1 = 0) as -> by lia. by rewrite H0.
Qed.

Lemma pages_before_first_share_window_witness :
  pageWindow init (-7) 25 = pageWindow init (firstPageNumber init) 25 /\
  (pageWindow init (-7) 25).2 = 0.
Proof.
  apply (pages_before_first_share_window init (-7) 25);
    vm_compute; [reflexivity|discriminate].
Defined.

(** ** Results and effects of [PageQuery] *)

Section Outcomes.

Context {row : Type}.
Implicit Types (g : Globals) (ds : DataSource row) (h : Heap row).
Implicit Types (v : Response) (l resultPtr : loc) (queryHandler : DB).

Lemma store_other h resultPtr (rows : option (list row)) l :
  l <> resultPtr ->
  slices (store h resultPtr rows) !! l = slices h !! l.
Proof.
  intros Hne. destruct rows; [|done]. simpl. by rewrite lookup_insert_ne.
Qed.

(** X6: with a handler that recovers every panic, as the default one
    does, [PageQuery] never panics and returns one of three things: the
    error of the handle and a nil response, whatever the page size; a
    nil response and a nil error when the page size is 0; otherwise a
    response at a fresh address and a nil error.  In the first two
    cases no response is allocated. *)
Theorem PageQuery_outcomes g ds h page rawPerPage queryHandler resultPtr :
  (forall p, recovery g p = None) ->
  let res := PageQuery g ds h page rawPerPage queryHandler resultPtr in
  match Error ds queryHandler with
  | Some err =>
      res.2 = Return (None, Some err) /\ responses res.1 = responses h
  | None =>
      if rawPerPage =? 0 then
        res.2 = Return (None, None) /\ responses res.1 = responses h
      else
        exists l v,
          res.2 = Return (Some l, None) /\
          responses h !! l = None /\
          responses res.1 = <[l := v]> (responses h)
  end.
Proof.
  intros Hrec. unfold PageQuery.
  destruct (pageWindow g page rawPerPage) as [limit offset].
  cbn zeta. set (h1 := store h resultPtr (Find ds queryHandler limit offset)).
  assert (responses h1 = responses h) as Hresp by apply store_responses.
  destruct (Error ds queryHandler) as [err|].
  { cbn [fst snd deferred]. by rewrite Hrec. }
  destruct (rawPerPage =? 0) eqn:E.
  - apply Z.eqb_eq in E as ->.
    assert (baseResponse page 0 (wrap (Count ds queryHandler)) queryHandler
              resultPtr = Panicking DivideByZero) as -> by reflexivity.
    cbn [fst snd deferred]. by rewrite Hrec.
  - apply Z.eqb_neq in E.
    destruct (baseResponse_total page rawPerPage
                (wrap (Count ds queryHandler)) queryHandler resultPtr E)
      as [v ->].
    exists (alloc h1 v).1, v. unfold alloc. cbn [fst snd deferred responses].
    rewrite Hrec, Hresp. split; [done|]. split; [|done].
    apply not_elem_of_dom, is_fresh.
Qed.

(** X7: whatever the result, [PageQuery] leaves every response that
    exists as it is, writes to no slice but the destination, returns
    only a response at an address that was free, and allocates nothing
    when it returns a nil response. *)
Theorem PageQuery_frame g ds h page rawPerPage queryHandler resultPtr :
  let res := PageQuery g ds h page rawPerPage queryHandler resultPtr in
  (forall l v, responses h !! l = Some v -> responses res.1 !! l = Some v) /\
  (forall p, p <> resultPtr -> slices res.1 !! p = slices h !! p) /\
  (forall l, res.2 = Return (Some l, None) ->
             responses h !! l = None /\ is_Some (responses res.1 !! l)) /\
  (forall e, res.2 = Return (None, e) -> responses res.1 = responses h).
Proof.
  cbn zeta.
  destruct (PageQuery_heap g ds h page rawPerPage queryHandler resultPtr)
    as (Hs & Hkeep & Hnew).
  split; [exact Hkeep|]. split.
  { intros p Hp. rewrite Hs. by apply store_other. }
  split.
  { intros l Hl. split; [by apply Hnew|].
    destruct (PageQuery g ds h page rawPerPage queryHandler resultPtr)
      as [h' o] eqn:Hq. simpl in Hl. subst o.
    apply PageQuery_inv in Hq as (_ & _ & v & _ & Hv). by exists v. }
  unfold PageQuery.
  destruct (pageWindow g page rawPerPage) as [limit offset].
  cbn zeta. set (h1 := store h resultPtr (Find ds queryHandler limit offset)).
  assert (responses h1 = responses h) as Hresp by apply store_responses.
  intros e.
  destruct (Error ds queryHandler) as [err|]; [done|].
  destruct (baseResponse _ _ _ _ _) as [v|p]; [|done].
  unfold alloc. cbn [fst snd deferred].
  destruct (recovery g None); discriminate.
Qed.

End Outcomes.

Lemma PageQuery_outcomes_witness :
  let res := PageQuery init (numbered 100) emptyHeap 3 0 1%positive
               2%positive in
  match Error (numbered 100) 1%positive with
  | Some err =>
      res.2 = Return (None, Some err) /\
      responses res.1 = responses (emptyHeap (row := Z))
  | None =>
      if 0 =? 0 then
        res.2 = Return (None, None) /\
        responses res.1 = responses (emptyHeap (row := Z))
      else
        exists l v,
          res.2 = Return (Some l, None) /\
          responses (emptyHeap (row := Z)) !! l = None /\
          responses res.1 = <[l := v]> (responses (emptyHeap (row := Z)))
  end.
Proof.
  apply (PageQuery_outcomes init (numbered 100) emptyHeap 3 0 1%positive
           2%positive).
  reflexivity.
Defined.

Lemma baseResponse_flags page rawPerPage count queryHandler resultPtr v :
  baseResponse page rawPerPage count queryHandler resultPtr = Return v ->
  FirstPage v = (page =? 1) /\
  LastPage v = (page =? PageCount v) /\
  Empty v = (page >? PageCount v) || (count =? 0) /\
  StartRow v = (if negb (Empty v) then mul page rawPerPage else 0) /\
  EndRow v = (if negb (Empty v) then
                if negb (LastPage v) then sub (mul (add page 1) rawPerPage) 1
                else count
              else 0).
Proof.
  intros Hv. destruct (baseResponse_fields _ _ _ _ _ _ Hv) as (Hn & _).
  by open_baseResponse Hv.
Qed.

Lemma is_ceil_div_bounds a b n :
  0 < b -> is_ceil_div a b n -> (n - 1) * b < a <= n * b.
Proof.
  intros Hb [Hle Hleast]. split; [|done].
  destruct (Z_lt_le_dec ((n - 1) * b) a) as [|Hge]; [done|].
  specialize (Hleast (n - 1) Hge). lia.
Qed.

(** ** Row numbers *)

Section Rows.

Context {row : Type}.
Implicit Types (g : Globals) (ds : DataSource row) (h : Heap row).
Implicit Types (v : Response) (l resultPtr : loc) (queryHandler : DB).


(** X8: for a page number from 0 up to but not including the page
    count (sizes for which the row numbers fit an [int]), the response
    is neither [Empty] nor [LastPage], [StartRow] is page times size,
    below the row count, and [EndRow] is [StartRow + size - 1]. *)
Theorem inner_page_rows g ds h page rawPerPage queryHandler resultPtr :
  Error ds queryHandler = None ->
  recovery g None = None ->
  0 <= Count ds queryHandler ->
  1 <= rawPerPage ->
  Count ds queryHandler + rawPerPage - 1 <= max_int ->
  exists v,
    returned (PageQuery g ds h page rawPerPage queryHandler resultPtr)
    = Some v /\
    (0 <= page < PageCount v ->
     Empty v = false /\ LastPage v = false /\
     StartRow v = page * rawPerPage /\
     EndRow v = StartRow v + rawPerPage - 1 /\
     StartRow v < Count ds queryHandler).
Proof.
  intros He Hr Hc Hp Hfit.
  set (count := Count ds queryHandler) in *.
  assert (0 <= count <= max_int) as Hc' by lia.
  assert (wrap count = count) as Hw.
  { apply wrap_id. unfold is_int, min_int, max_int in *. lia. }
  destruct (baseResponse_total page rawPerPage (wrap count) queryHandler
              resultPtr ltac:(lia)) as [v Hv].
  exists v. split; [by apply returned_PageQuery|].
  rewrite Hw in Hv.
  destruct (baseResponse_pageCount _ _ _ _ _ _ Hc' Hp Hv) as (Hceil & Hpc & H0).
  pose proof (is_ceil_div_bounds count rawPerPage (PageCount v)
                ltac:(lia) Hceil) as Hb.
  destruct (baseResponse_flags _ _ _ _ _ _ Hv) as (_ & Hlast & Hempty & Hs & Hd).
  intros Hin.
  assert (LastPage v = false) as Hnl.
  { rewrite Hlast. apply Z.eqb_neq. lia. }
  assert (Empty v = false) as Hne.
  { rewrite Hempty. apply orb_false_iff. split; lia. }
  rewrite Hne in Hs, Hd. rewrite Hnl in Hd. cbn [negb] in Hs, Hd.
  assert ((page + 1) * rawPerPage <= PageCount v * rawPerPage) as Hle by nia.
  assert (StartRow v = page * rawPerPage) as Hs'.
  { rewrite Hs. apply wrap_id. unfold is_int, min_int, max_int in *. nia. }
  assert (EndRow v = (page + 1) * rawPerPage - 1) as Hd'.
  { rewrite Hd. unfold sub, mul, add.
    rewrite (wrap_id (page + 1))
      by (unfold is_int, min_int, max_int in *; lia).
    rewrite (wrap_id ((page + 1) * rawPerPage))
      by (unfold is_int, min_int, max_int in *; nia).
    apply wrap_id. unfold is_int, min_int, max_int in *. nia. }
  split; [done|]. split; [done|]. split; [done|].
  rewrite Hs', Hd'. split; nia.
Qed.

(** X10: a negative page size is replaced by the default only in the
    limit handed to the database; the metadata divides by it as given,
    so the page count is at most 1 and every page after page 1 is
    reported [Empty] with [StartRow = EndRow = 0]. *)
Theorem negative_page_size g ds h page rawPerPage queryHandler resultPtr :
  Error ds queryHandler = None ->
  recovery g None = None ->
  0 <= Count ds queryHandler <= max_int ->
  rawPerPage < 0 ->
  (pageWindow g page rawPerPage).1 = defaultRpp g /\
  exists v,
    returned (PageQuery g ds h page rawPerPage queryHandler resultPtr)
    = Some v /\
    RawPerPage v = rawPerPage /\
    PageCount v <= 1 /\
    (1 < page -> Empty v = true /\ StartRow v = 0 /\ EndRow v = 0).
Proof.
  intros He Hr Hc Hneg. split.
  { unfold pageWindow, getLimitOffset.
    destruct (rawPerPage <? 1) eqn:E; [|lia]. by destruct (negb (use0Page g)). }
  set (count := Count ds queryHandler) in *.
  assert (wrap count = count) as Hw.
  { apply wrap_id. unfold is_int, min_int, max_int in *. lia. }
  destruct (baseResponse_total page rawPerPage (wrap count) queryHandler
              resultPtr ltac:(lia)) as [v Hv].
  exists v. split; [by apply returned_PageQuery|].
  rewrite Hw in Hv.
  destruct (baseResponse_fields _ _ _ _ _ _ Hv) as (_ & _ & Hrp & _).
  destruct (baseResponse_flags _ _ _ _ _ _ Hv) as (_ & _ & Hempty & Hs & Hd).
  assert (PageCount v <= 1) as Hpc.
  { clear Hempty Hs Hd Hrp. revert Hv. unfold baseResponse, quo, rem.
    destruct (rawPerPage =? 0) eqn:E; [lia|]. intros [= <-]. cbn [PageCount].
    assert (exists b, 0 < b /\ rawPerPage = - b) as (b & Hb & ->)
      by (exists (- rawPerPage); lia).
    rewrite Z.quot_opp_r by lia.
    rewrite Z.quot_div_nonneg by lia.
    assert (0 <= count `div` b <= count) as Hq.
    { split; [apply Z.div_pos; lia|]. apply Z.div_le_upper_bound; nia. }
    rewrite (wrap_id (- (count `div` b)))
      by (unfold is_int, min_int, max_int in *; lia).
    destruct (negb _); [|lia].
    unfold add. rewrite wrap_id
      by (unfold is_int, min_int, max_int in *; lia). lia. }
  split; [done|]. split; [done|]. intros Hpage.
  assert (Empty v = true) as Hem.
  { rewrite Hempty. apply orb_true_iff. left. lia. }
  rewrite Hem in Hs, Hd. done.
Qed.

End Rows.


Lemma inner_page_rows_witness :
  exists v,
    returned (PageQuery init (numbered 101) emptyHeap 2 25 1%positive
                2%positive) = Some v /\
    (0 <= 2 < PageCount v ->
     Empty v = false /\ LastPage v = false /\
     StartRow v = 2 * 25 /\
     EndRow v = StartRow v + 25 - 1 /\
     StartRow v < Count (numbered 101) 1%positive).
Proof.
  apply (inner_page_rows init (numbered 101) emptyHeap 2 25 1%positive
           2%positive);
    [reflexivity|reflexivity|vm_compute; discriminate|lia
    |vm_compute; discriminate].
Defined.

Lemma negative_page_size_witness :
  (pageWindow init 2 (-5)).1 = defaultRpp init /\
  exists v,
    returned (PageQuery init (numbered 100) emptyHeap 2 (-5) 1%positive
                2%positive) = Some v /\
    RawPerPage v = -5 /\
    PageCount v <= 1 /\
    (1 < 2 -> Empty v = true /\ StartRow v = 0 /\ EndRow v = 0).
Proof.
  apply (negative_page_size init (numbered 100) emptyHeap 2 (-5) 1%positive
           2%positive);
    [reflexivity|reflexivity|closed_bound|lia].
Defined.

Lemma baseResponse_pageCount_page p1 p2 rawPerPage count d1 d2 b1 b2 v1 v2 :
  baseResponse p1 rawPerPage count d1 b1 = Return v1 ->
  baseResponse p2 rawPerPage count d2 b2 = Return v2 ->
  PageCount v2 = PageCount v1.
Proof.
  intros H1 H2.
  destruct (baseResponse_fields _ _ _ _ _ _ H1) as (Hn & _).
  open_baseResponse H1. open_baseResponse H2. reflexivity.
Qed.

(** ** More on navigation *)

Section MoreNavigation.

Context {row : Type}.
Implicit Types (g : Globals) (ds : DataSource row) (h : Heap row).
Implicit Types (v : Response) (l r resultPtr : loc) (queryHandler d : DB).

(** X11: [GetEndPage] on a fetched page, the handle still reporting
    the same count and no error, returns a response whose [PageNow] is
    the page count, flagged [LastPage], [Empty] exactly when there are
    no rows, and with [EndRow] the row count otherwise. *)
Theorem end_page_is_last g ds1 ds2 h page rawPerPage queryHandler resultPtr
    h1 r1 v1 :
  PageQuery g ds1 h page rawPerPage queryHandler resultPtr
  = (h1, Return (Some r1, None)) ->
  responses h1 !! r1 = Some v1 ->
  Count ds2 queryHandler = Count ds1 queryHandler ->
  Error ds2 queryHandler = None ->
  exists v2,
    returned (GetEndPage g ds2 h1 r1) = Some v2 /\
    PageNow v2 = PageCount v1 /\
    PageCount v2 = PageCount v1 /\
    RawCount v2 = RawCount v1 /\
    LastPage v2 = true /\
    Empty v2 = (RawCount v2 =? 0) /\
    (Empty v2 = false -> EndRow v2 = RawCount v2).
Proof.
  intros Hq Hl1 Hc He.
  apply PageQuery_inv in Hq as (_ & Hrec & v & Hb1 & Hl).
  assert (v = v1) as -> by congruence.
  destruct (baseResponse_fields _ _ _ _ _ _ Hb1)
    as (Hn & _ & Hrp & Hrc & Hrs & Hh).
  destruct (baseResponse_total (PageCount v1) rawPerPage
              (wrap (Count ds2 queryHandler)) queryHandler resultPtr Hn)
    as [v2 Hb2].
  exists v2. split.
  { unfold GetEndPage. rewrite Hl1, Hrp, Hrs, Hh.
    by apply returned_PageQuery. }
  rewrite Hc in Hb2.
  pose proof (baseResponse_pageCount_page _ _ _ _ _ _ _ _ _ _ Hb1 Hb2) as Hpc.
  destruct (baseResponse_fields _ _ _ _ _ _ Hb2) as (_ & Hpn2 & _ & Hrc2 & _).
  destruct (baseResponse_flags _ _ _ _ _ _ Hb2)
    as (_ & Hlast & Hempty & _ & Hd).
  assert (LastPage v2 = true) as Hl2.
  { rewrite Hlast, Hpc. apply Z.eqb_refl. }
  assert (Empty v2 = (RawCount v2 =? 0)) as Hem.
  { rewrite Hempty, Hpc, Hrc2.
    replace (PageCount v1 >? PageCount v1) with false; [done|].
    symmetry. rewrite Z.gtb_ltb. apply Z.ltb_irrefl. }
  split; [done|]. split; [done|]. split; [congruence|].
  split; [done|]. split; [done|].
  intros Hne. rewrite Hd, Hne, Hl2. by rewrite Hrc2.
Qed.

(** X12: [GetFirstPage] asks for page 0 or 1 according to the
    convention and fetches at offset 0 with the page size, handle and
    destination of the receiver; the [FirstPage] flag of the result is
    set only under the default convention. *)
Theorem first_page_fetch g ds h r v :
  responses h !! r = Some v ->
  Error ds (handler v) = None ->
  recovery g None = None ->
  RawPerPage v <> 0 ->
  (pageWindow g (firstPageNumber g) (RawPerPage v)).2 = 0 /\
  exists v',
    returned (GetFirstPage g ds h r) = Some v' /\
    PageNow v' = firstPageNumber g /\
    FirstPage v' = negb (use0Page g) /\
    RawPerPage v' = RawPerPage v /\
    handler v' = handler v /\
    ResultSet v' = ResultSet v.
Proof.
  intros Hr He Hrec Hn. split.
  { unfold pageWindow, firstPageNumber, getLimitOffset.
    by destruct (use0Page g). }
  destruct (baseResponse_total (firstPageNumber g) (RawPerPage v)
              (wrap (Count ds (handler v))) (handler v) (ResultSet v) Hn)
    as [v' Hb].
  exists v'. split.
  { unfold GetFirstPage. rewrite Hr. by apply returned_PageQuery. }
  destruct (baseResponse_fields _ _ _ _ _ _ Hb)
    as (_ & Hpn & Hrp & _ & Hrs & Hh).
  destruct (baseResponse_flags _ _ _ _ _ _ Hb) as (Hf & _).
  split; [done|]. split; [|done].
  rewrite Hf. unfold firstPageNumber. by destruct (use0Page g).
Qed.

(** X13: [SetHandler] changes nothing but the handle stored in the
    receiver: the slices and the other responses stay as they are, and
    each navigation method then queries the new handle at the page,
    with the size and the destination, it would have used before. *)
Theorem SetHandler_rebinds n g ds h r v d :
  responses h !! r = Some v ->
  let res := SetHandler h r d in
  res.2 = Return tt /\
  slices res.1 = slices h /\
  (forall l, l <> r -> responses res.1 !! l = responses h !! l) /\
  navigate n g ds res.1 r
  = PageQuery g ds res.1 (targetPage g n v) (RawPerPage v) d (ResultSet v).
Proof.
  intros Hr. unfold SetHandler. rewrite Hr. cbn [fst snd].
  split; [done|]. split; [done|]. split.
  { intros l Hl. cbn [responses]. by rewrite lookup_insert_ne. }
  set (v' := mkResponse _ _ _ _ _ _ _ _ _ _ d).
  rewrite (navigate_PageQuery n g ds _ r v').
  - by destruct n.
  - cbn [responses]. apply lookup_insert_eq.
Qed.

End MoreNavigation.

Lemma end_page_is_last_witness :
  exists v2,
    returned (GetEndPage init (numbered 100) firstFetch.1 1%positive)
    = Some v2 /\
    PageNow v2 = PageCount firstResponse /\
    PageCount v2 = PageCount firstResponse /\
    RawCount v2 = RawCount firstResponse /\
    LastPage v2 = true /\
    Empty v2 = (RawCount v2 =? 0) /\
    (Empty v2 = false -> EndRow v2 = RawCount v2).
Proof.
  apply (end_page_is_last init (numbered 100) (numbered 100) emptyHeap 1 25
           1%positive 2%positive firstFetch.1 1%positive firstResponse);
    reflexivity.
Defined.

Lemma first_page_fetch_witness :
  (pageWindow init (firstPageNumber init) (RawPerPage firstResponse)).2 = 0 /\
  exists v',
    returned (GetFirstPage init (numbered 100) firstFetch.1 1%positive)
    = Some v' /\
    PageNow v' = firstPageNumber init /\
    FirstPage v' = negb (use0Page init) /\
    RawPerPage v' = RawPerPage firstResponse /\
    handler v' = handler firstResponse /\
    ResultSet v' = ResultSet firstResponse.
Proof.
  apply (first_page_fetch init (numbered 100) firstFetch.1 1%positive
           firstResponse);
    [reflexivity|reflexivity|reflexivity|discriminate].
Defined.

Lemma SetHandler_rebinds_witness :
  let res := SetHandler firstFetch.1 1%positive 9%positive in
  res.2 = Return tt /\
  slices res.1 = slices firstFetch.1 /\
  (forall l, l <> 1%positive ->
             responses res.1 !! l = responses firstFetch.1 !! l) /\
  navigate NavNext init (numbered 100) res.1 1%positive
  = PageQuery init (numbered 100) res.1
      (targetPage init NavNext firstResponse) (RawPerPage firstResponse)
      9%positive (ResultSet firstResponse).
Proof.
  apply (SetHandler_rebinds NavNext init (numbered 100) firstFetch.1
           1%positive firstResponse 9%positive).
  reflexivity.
Defined.
